(** * ktxFileStream: the FILE realization of ktxStream (lib/ktxfilestream.c)

    The six stream operations are thin glue over stdio.  They are embedded
    as programs of a small free monad whose actions are the libc calls the
    C code issues; a handler gives those calls the meaning they have on a
    regular file behind a fully buffered binary stdio stream: output waits
    in the stdio buffer until a seek or a read passes it to the device, and
    the metadata query sees the device only.  Keeping the two apart lets a
    statement speak both about what an operation returns and about which
    calls reached the backend.

    Data model (LP64): GLsizei is a 32-bit int, off_t and long are 64-bit
    signed, size_t is 64-bit unsigned.  Integers are Z with the conversions
    written out. *)

From Stdlib Require Import ZArith List Lia Bool.
Import ListNotations.
Local Open Scope Z_scope.

(** ** Integer types *)

Definition INT_MAX : Z := 2 ^ 31 - 1.
Definition OFF_MAX : Z := 2 ^ 63 - 1.
Definition SIZE_MAX : Z := 2 ^ 64 - 1.

(** Conversion of an integer value to size_t (reduction modulo 2^64). *)
Definition to_size_t (z : Z) : Z := z mod 2 ^ 64.

Definition off_t_range (z : Z) : Prop := - 2 ^ 63 <= z <= OFF_MAX.

(** ** Declarations taken from ktx.h and ktxint.h

    Only the enumerators and fields lib/ktxfilestream.c names. *)

Inductive KTX_error_code : Set :=
| KTX_SUCCESS
| KTX_FILE_WRITE_ERROR
| KTX_INVALID_OPERATION
| KTX_INVALID_VALUE
| KTX_UNEXPECTED_END_OF_FILE.

Inductive streamType : Set :=
| eStreamTypeFile
| eStreamTypeMemory.

Definition streamType_eqb (a b : streamType) : bool :=
  match a, b with
  | eStreamTypeFile, eStreamTypeFile => true
  | eStreamTypeMemory, eStreamTypeMemory => true
  | _, _ => false
  end.

(** A FILE* is an opaque handle. *)
Definition FILEptr : Set := nat.

(** The function pointers a stream's slots may hold. *)
Inductive fnptr : Set :=
| fn_null
| fn_ktxFileStream_read
| fn_ktxFileStream_skip
| fn_ktxFileStream_write
| fn_ktxFileStream_getpos
| fn_ktxFileStream_setpos
| fn_ktxFileStream_getsize.

Record ktxStream : Set := mk_ktxStream {
  read : fnptr;
  skip : fnptr;
  write : fnptr;
  getpos : fnptr;
  setpos : fnptr;
  getsize : fnptr;
  type : streamType;
  data_file : FILEptr
}.

(** Memory blocks passed by pointer are byte lists; a pointer argument is
    an [option], [None] standing for NULL. *)
Definition buffer : Set := list Byte.byte.

(** ** The libc calls issued by the stream operations *)

Inductive whence : Set := SEEK_SET | SEEK_CUR | SEEK_END.

Record stat : Set := mk_stat { st_size : Z }.

(** [fread] answers with the number of complete items and the bytes it
    stored at [ptr]; [fwrite] receives the block found at [ptr]. *)
Inductive libc : Type -> Type :=
| fread (size nmemb : Z) (stream : FILEptr) : libc (Z * buffer)
| fwrite (ptr : buffer) (size nmemb : Z) (stream : FILEptr) : libc Z
| fseek (stream : FILEptr) (offset : Z) (w : whence) : libc Z
| fseeko (stream : FILEptr) (offset : Z) (w : whence) : libc Z
| ftello (stream : FILEptr) : libc Z
| fileno (stream : FILEptr) : libc Z
| fstat (fd : Z) : libc (Z * stat).

(** Names of the calls, for traces. *)
Inductive libfn : Set :=
| FREAD | FWRITE | FSEEK | FSEEKO | FTELLO | FILENO | FSTAT.

Definition libfn_of {X : Type} (c : libc X) : libfn :=
  match c with
  | fread _ _ _ => FREAD
  | fwrite _ _ _ _ => FWRITE
  | fseek _ _ _ => FSEEK
  | fseeko _ _ _ => FSEEKO
  | ftello _ => FTELLO
  | fileno _ => FILENO
  | fstat _ => FSTAT
  end.

(** ** Programs over libc *)

Inductive io (A : Type) : Type :=
| Ret (a : A)
| Abort
| Call (X : Type) (c : libc X) (k : X -> io A).

Arguments Ret {A} a.
Arguments Abort {A}.
Arguments Call {A X} c k.

Fixpoint bind {A B : Type} (m : io A) (f : A -> io B) : io B :=
  match m with
  | Ret a => f a
  | Abort => Abort
  | Call c k => Call c (fun x => bind (k x) f)
  end.

Definition call {X : Type} (c : libc X) : io X := Call c Ret.

(** [assert(e)]: the process is aborted when [e] is false. *)
Definition assert (e : bool) : io unit := if e then Ret tt else Abort.

Declare Scope io_scope.
Delimit Scope io_scope with io.
Notation "x <- m ;; k" := (bind m (fun x => k))
  (at level 61, m at next level, right associativity) : io_scope.
Notation "' p <- m ;; k" := (bind m (fun x => match x with p => k end))
  (at level 61, p pattern, m at next level, right associativity) : io_scope.
Notation "m ;; k" := (bind m (fun _ => k))
  (at level 61, right associativity) : io_scope.
Local Open Scope io_scope.

(** Storing [got] at the start of the block [dst]. *)
Definition store (got dst : buffer) : buffer :=
  got ++ skipn (length got) dst.

(** ** lib/ktxfilestream.c *)

Definition ktxFileStream_read (str : option ktxStream) (dst : option buffer)
    (size : Z) : io (KTX_error_code * option buffer) :=
  match str, dst with
  | Some s, Some d =>
      assert (streamType_eqb (type s) eStreamTypeFile) ;;
      ' (n, got) <- call (fread (to_size_t size) 1 (data_file s)) ;;
      if negb (n =? 1)
      then Ret (KTX_UNEXPECTED_END_OF_FILE, Some (store got d))
      else Ret (KTX_SUCCESS, Some (store got d))
  | _, _ => Ret (KTX_INVALID_VALUE, dst)
  end.

Definition ktxFileStream_skip (str : option ktxStream) (count : Z)
    : io KTX_error_code :=
  match str with
  | None => Ret KTX_INVALID_VALUE
  | Some s =>
      if count <? 0 then Ret KTX_INVALID_VALUE
      else
        assert (streamType_eqb (type s) eStreamTypeFile) ;;
        rc <- call (fseek (data_file s) count SEEK_CUR) ;;
        if negb (rc =? 0) then Ret KTX_UNEXPECTED_END_OF_FILE
        else Ret KTX_SUCCESS
  end.

Definition ktxFileStream_write (str : option ktxStream) (src : option buffer)
    (size count : Z) : io KTX_error_code :=
  match str, src with
  | Some s, Some b =>
      assert (streamType_eqb (type s) eStreamTypeFile) ;;
      n <- call (fwrite b (to_size_t size) (to_size_t count) (data_file s)) ;;
      if negb (n =? to_size_t count) then Ret KTX_FILE_WRITE_ERROR
      else Ret KTX_SUCCESS
  | _, _ => Ret KTX_INVALID_VALUE
  end.

Definition ktxFileStream_getpos (str : option ktxStream) (pos : option Z)
    : io (KTX_error_code * option Z) :=
  match str, pos with
  | Some s, Some _ =>
      assert (streamType_eqb (type s) eStreamTypeFile) ;;
      p <- call (ftello (data_file s)) ;;
      Ret (KTX_SUCCESS, Some p)
  | _, _ => Ret (KTX_INVALID_VALUE, pos)
  end.

Definition ktxFileStream_getsize (str : option ktxStream) (size : option Z)
    : io (KTX_error_code * option Z) :=
  match str, size with
  | Some s, Some _ =>
      assert (streamType_eqb (type s) eStreamTypeFile) ;;
      fd <- call (fileno (data_file s)) ;;
      ' (rc, statbuf) <- call (fstat fd) ;;
      if rc <? 0 then Ret (KTX_FILE_WRITE_ERROR, size)
      else Ret (KTX_SUCCESS, Some (to_size_t (st_size statbuf)))
  | _, _ => Ret (KTX_INVALID_VALUE, size)
  end.

(** The call [str->getsize(str, size)] through the stream's slot.  A slot
    that holds no getsize function cannot be called. *)
Definition call_getsize (fn : fnptr) (str : option ktxStream)
    (size : option Z) : io (KTX_error_code * option Z) :=
  match fn with
  | fn_ktxFileStream_getsize => ktxFileStream_getsize str size
  | _ => Abort
  end.

(** [fileSize] is a local that is not initialized; [junk] is the value it
    happens to hold.  The return code of the size query is dropped, and
    [pos > fileSize] compares after converting [pos] to size_t. *)
Definition ktxFileStream_setpos (junk : Z) (str : option ktxStream) (pos : Z)
    : io KTX_error_code :=
  match str with
  | None => Ret KTX_INVALID_VALUE
  | Some s =>
      assert (streamType_eqb (type s) eStreamTypeFile) ;;
      r <- call_getsize (getsize s) (Some s) (Some junk) ;;
      let fileSize := match snd r with Some v => v | None => junk end in
      if to_size_t pos >? fileSize then Ret KTX_INVALID_OPERATION
      else
        rc <- call (fseeko (data_file s) pos SEEK_SET) ;;
        if rc <? 0 then Ret KTX_INVALID_OPERATION
        else Ret KTX_SUCCESS
  end.

(** The stream [ktxFileStream_construct] leaves in [*str]. *)
Definition fileStream (file : FILEptr) : ktxStream :=
  {| data_file := file;
     type := eStreamTypeFile;
     read := fn_ktxFileStream_read;
     skip := fn_ktxFileStream_skip;
     write := fn_ktxFileStream_write;
     getpos := fn_ktxFileStream_getpos;
     setpos := fn_ktxFileStream_setpos;
     getsize := fn_ktxFileStream_getsize |}.

Definition ktxFileStream_construct (str : option ktxStream)
    (file : option FILEptr) : KTX_error_code * option ktxStream :=
  match str, file with
  | Some _, Some f => (KTX_SUCCESS, Some (fileStream f))
  | _, _ => (KTX_INVALID_VALUE, str)
  end.

(** ** The backend: a regular file behind a buffered binary stdio stream

    [f_data] is what the device holds: the bytes fstat measures and fread
    delivers.  [f_pos] is the file-position indicator, as ftello reports
    it.  [f_pending] is output that fwrite has accepted into the stdio
    buffer and that has not reached the device yet; it ends at the cursor.
    [f_bufsiz] bounds what the buffer holds.  [f_readable]/[f_writable]
    record the open mode, [f_limit] is the largest size the device lets
    the file reach, and [f_stat_err] says that the metadata query on the
    descriptor fails. *)

Record FILE : Set := mk_FILE {
  f_data : buffer;
  f_pos : Z;
  f_pending : buffer;
  f_bufsiz : Z;
  f_readable : bool;
  f_writable : bool;
  f_limit : Z;
  f_fd : Z;
  f_stat_err : bool
}.

(** The size of the file on the device. *)
Definition f_size (f : FILE) : Z := Z.of_nat (length (f_data f)).

(** The offset at which the waiting output starts. *)
Definition pending_start (f : FILE) : Z :=
  f_pos f - Z.of_nat (length (f_pending f)).

Definition set_pos (f : FILE) (p : Z) : FILE :=
  {| f_data := f_data f; f_pos := p;
     f_pending := f_pending f; f_bufsiz := f_bufsiz f;
     f_readable := f_readable f; f_writable := f_writable f;
     f_limit := f_limit f; f_fd := f_fd f; f_stat_err := f_stat_err f |}.

(** The device holds [d], nothing is waiting, the cursor is [p]. *)
Definition set_data (f : FILE) (d : buffer) (p : Z) : FILE :=
  {| f_data := d; f_pos := p;
     f_pending := []; f_bufsiz := f_bufsiz f;
     f_readable := f_readable f; f_writable := f_writable f;
     f_limit := f_limit f; f_fd := f_fd f; f_stat_err := f_stat_err f |}.

(** [b] joins the waiting output, the cursor is [p]. *)
Definition add_pending (f : FILE) (b : buffer) (p : Z) : FILE :=
  {| f_data := f_data f; f_pos := p;
     f_pending := f_pending f ++ b; f_bufsiz := f_bufsiz f;
     f_readable := f_readable f; f_writable := f_writable f;
     f_limit := f_limit f; f_fd := f_fd f; f_stat_err := f_stat_err f |}.

(** The [n] bytes of [d] that start at offset [p] (fewer at the end). *)
Definition slice (p n : Z) (d : buffer) : buffer :=
  firstn (Z.to_nat n) (skipn (Z.to_nat p) d).

(** [d] with [b] written at offset [p]; a gap between the old end and [p]
    reads as zero bytes. *)
Definition write_at (p : Z) (b d : buffer) : buffer :=
  firstn (Z.to_nat p) (d ++ repeat Byte.x00 (Z.to_nat p - length d))
  ++ b ++ skipn (Z.to_nat p + length b) d.

(** Passing the waiting output to the device.  The device takes the bytes
    up to its limit; when some are refused the flush fails, the buffer is
    dropped all the same and the cursor stands after the last byte
    taken. *)
Definition flush_out (f : FILE) : bool * FILE :=
  match f_pending f with
  | [] => (true, f)
  | _ :: _ =>
      let start := pending_start f in
      let room := Z.max 0 (f_limit f - start) in
      if Z.of_nat (length (f_pending f)) <=? room
      then (true,
            set_data f (write_at start (f_pending f) (f_data f)) (f_pos f))
      else (false,
            set_data f
              (if room =? 0 then f_data f
               else write_at start (firstn (Z.to_nat room) (f_pending f))
                      (f_data f))
              (start + room))
  end.

(** fread: nothing happens for a zero [size] or [nmemb], nor on a stream
    not open for reading.  Otherwise waiting output is flushed, as many of
    the requested bytes as the file holds from the cursor on are
    transferred, the cursor moves past them, and the number of complete
    items is returned. *)
Definition posix_fread (size nmemb : Z) (f : FILE) : (Z * buffer) * FILE :=
  if (size =? 0) || (nmemb =? 0) || negb (f_readable f) then ((0, []), f)
  else
    let '(ok, f1) := flush_out f in
    if negb ok then ((0, []), f1)
    else
      let avail := Z.max 0 (f_size f1 - f_pos f1) in
      let k := Z.min (size * nmemb) avail in
      ((k / size, slice (f_pos f1) k (f_data f1)),
       set_pos f1 (f_pos f1 + k)).

(** fwrite: nothing happens for a zero [size] or [nmemb], nor on a stream
    not open for writing.  A request that fits the buffer beside the
    waiting output is only copied there: every element is reported
    written, and the device, hence its limit and the size fstat measures,
    is not involved.  A request that does not fit goes to the device at
    once, after the waiting output, and stops at the device limit.
    (Implementations differ in how they split such a request between
    device and buffer.) *)
Definition posix_fwrite (ptr : buffer) (size nmemb : Z) (f : FILE)
    : Z * FILE :=
  if (size =? 0) || (nmemb =? 0) || negb (f_writable f) then (0, f)
  else if Z.of_nat (length (f_pending f)) + size * nmemb <? f_bufsiz f
  then (nmemb,
        add_pending f (firstn (Z.to_nat (size * nmemb)) ptr)
          (f_pos f + size * nmemb))
  else
    let '(ok, f1) := flush_out f in
    if negb ok then (0, f1)
    else
      let room := Z.max 0 (f_limit f1 - f_pos f1) in
      let k := Z.min (size * nmemb) room in
      if k =? 0 then (0, f1)
      else (k / size,
            set_data f1
              (write_at (f_pos f1) (firstn (Z.to_nat k) ptr) (f_data f1))
              (f_pos f1 + k)).

(** fseek and fseeko: waiting output is flushed first, and the call fails
    when that fails.  The target may lie beyond the end of the data; it
    may not be negative nor exceed what off_t holds. *)
Definition posix_fseek (offset : Z) (w : whence) (f : FILE) : Z * FILE :=
  let '(ok, f1) := flush_out f in
  if negb ok then (-1, f1)
  else
    let base := match w with
                | SEEK_SET => 0
                | SEEK_CUR => f_pos f1
                | SEEK_END => f_size f1
                end in
    let target := base + offset in
    if (target <? 0) || (OFF_MAX <? target) then (-1, f1)
    else (0, set_pos f1 target).

(** fstat measures the file on the device; waiting output does not
    count. *)
Definition posix_fstat (fd : Z) (f : FILE) : (Z * stat) * FILE :=
  if f_stat_err f || negb (fd =? f_fd f) then ((-1, mk_stat 0), f)
  else ((0, mk_stat (f_size f)), f).

(** ftello reports the cursor, waiting output included, and flushes
    nothing. *)
Definition libc_step {X : Type} (c : libc X) (f : FILE) : X * FILE :=
  match c in libc T return T * FILE with
  | fread size nmemb _ => posix_fread size nmemb f
  | fwrite ptr size nmemb _ => posix_fwrite ptr size nmemb f
  | fseek _ offset w => posix_fseek offset w f
  | fseeko _ offset w => posix_fseek offset w f
  | ftello _ => (f_pos f, f)
  | fileno _ => (f_fd f, f)
  | fstat fd => posix_fstat fd f
  end.

(** Running a program on a file: the calls issued in order, the file
    afterwards, and the value returned ([None] when the run aborted). *)
Fixpoint run {A : Type} (m : io A) (f : FILE)
    : list libfn * FILE * option A :=
  match m with
  | Ret a => ([], f, Some a)
  | Abort => ([], f, None)
  | Call c k =>
      let '(x, f1) := libc_step c f in
      let '(t, f2, r) := run (k x) f1 in
      (libfn_of c :: t, f2, r)
  end.

Definition calls {A : Type} (o : list libfn * FILE * option A) : list libfn :=
  fst (fst o).
Definition file_after {A : Type} (o : list libfn * FILE * option A) : FILE :=
  snd (fst o).
Definition returned {A : Type} (o : list libfn * FILE * option A) : option A :=
  snd o.

(** A file whose cursor and size fit off_t, whose size respects the
    device limit, and whose waiting output starts at a valid offset. *)
Definition wf_FILE (f : FILE) : Prop :=
  0 <= f_pos f <= OFF_MAX /\ f_size f <= f_limit f <= OFF_MAX
  /\ 0 <= pending_start f.

(** The invariant of the stream: the cursor that getpos reports lies
    within the size that getsize reports. *)
Definition pos_in_range (f : FILE) : Prop := 0 <= f_pos f <= f_size f.

(** ** Sample files *)

Definition bytes_of (n : nat) : buffer := repeat Byte.x2a n.

(** A file with nothing waiting in a 4096-byte buffer, on a device
    without a limit of its own, whose metadata query works. *)
Definition sample_file (d : buffer) (p : Z) (r w : bool) : FILE :=
  {| f_data := d; f_pos := p; f_pending := []; f_bufsiz := 4096;
     f_readable := r; f_writable := w;
     f_limit := OFF_MAX; f_fd := 3; f_stat_err := false |}.

(** The 100-byte file of the skip scenario, opened read-only, with the
    cursor at offset 50. *)
Definition file100 : FILE := sample_file (bytes_of 100) 50 true false.

(** An empty file opened for update. *)
Definition empty_file : FILE := sample_file [] 0 true true.

(** Eight distinct bytes. *)
Definition digits : buffer :=
  [Byte.x01; Byte.x02; Byte.x03; Byte.x04;
   Byte.x05; Byte.x06; Byte.x07; Byte.x08].

(** An empty file opened for update on a device that takes five bytes. *)
Definition small_device : FILE :=
  {| f_data := []; f_pos := 0; f_pending := []; f_bufsiz := 4096;
     f_readable := true; f_writable := true;
     f_limit := 5; f_fd := 3; f_stat_err := false |}.

(** A 10-byte file opened for update whose metadata query fails. *)
Definition stat_broken : FILE :=
  {| f_data := bytes_of 10; f_pos := 5; f_pending := []; f_bufsiz := 4096;
     f_readable := true; f_writable := true;
     f_limit := OFF_MAX; f_fd := 3; f_stat_err := true |}.

(** ** Sequences of operations used in the statements *)

(** skip, then ask for the position and for the size. *)
Definition skip_then_query (str : option ktxStream) (count : Z)
    : io (KTX_error_code * (KTX_error_code * option Z)
          * (KTX_error_code * option Z)) :=
  c <- ktxFileStream_skip str count ;;
  p <- ktxFileStream_getpos str (Some 0) ;;
  s <- ktxFileStream_getsize str (Some 0) ;;
  Ret (c, p, s).

(** Write [src] as [count] elements of [size] bytes at the cursor, move
    the cursor back to [offset], read [size * count] bytes into [dst]. *)
Definition write_then_read (junk : Z) (str : option ktxStream)
    (src dst : buffer) (size count offset : Z)
    : io (KTX_error_code * KTX_error_code
          * (KTX_error_code * option buffer)) :=
  w <- ktxFileStream_write str (Some src) size count ;;
  p <- ktxFileStream_setpos junk str offset ;;
  r <- ktxFileStream_read str (Some dst) (size * count) ;;
  Ret (w, p, r).

(** The round-trip law at one input: starting with the cursor of [f] at
    the offset, the three calls succeed and the destination then starts
    with the bytes of [src]. *)
Definition round_trip (f : FILE) (junk : Z) (file : FILEptr)
    (src dst : buffer) (size count : Z) : Prop :=
  exists t f' d,
    run (write_then_read junk (Some (fileStream file)) src dst size count
           (f_pos f)) f
    = (t, f', Some (KTX_SUCCESS, KTX_SUCCESS, (KTX_SUCCESS, Some d)))
    /\ firstn (length src) d = src.


(** Write, then reposition by a skip of no bytes. *)
Definition write_then_skip0 (str : option ktxStream) (src : buffer)
    (size count : Z) : io (KTX_error_code * KTX_error_code) :=
  w <- ktxFileStream_write str (Some src) size count ;;
  c <- ktxFileStream_skip str 0 ;;
  Ret (w, c).


(** ** Basic facts *)

Arguments to_size_t : simpl never.
Arguments flush_out : simpl never.
Arguments posix_fread : simpl never.
Arguments posix_fwrite : simpl never.
Arguments posix_fseek : simpl never.
Arguments posix_fstat : simpl never.

Lemma ktxFileStream_construct_ok (s0 : ktxStream) (file : FILEptr) :
  ktxFileStream_construct (Some s0) (Some file)
  = (KTX_SUCCESS, Some (fileStream file)).
Proof. reflexivity. Qed.

Lemma ktxFileStream_construct_null (str : option ktxStream)
    (file : option FILEptr) :
  str = None \/ file = None ->
  ktxFileStream_construct str file = (KTX_INVALID_VALUE, str).
Proof. intros [-> | ->]; [reflexivity | destruct str; reflexivity]. Qed.

Lemma to_size_t_id (z : Z) : 0 <= z <= SIZE_MAX -> to_size_t z = z.
Proof.
  unfold to_size_t, SIZE_MAX. intros H. apply Z.mod_small. lia.
Qed.

Lemma to_size_t_neg (z : Z) :
  - 2 ^ 64 <= z < 0 -> to_size_t z = z + 2 ^ 64.
Proof.
  unfold to_size_t. intros H.
  symmetry. apply (Z.mod_unique z (2 ^ 64) (-1)); lia.
Qed.

Lemma f_size_nonneg (f : FILE) : 0 <= f_size f.
Proof. unfold f_size. lia. Qed.

(** Running a sequence runs its parts in order; an abort stops the run. *)
Lemma run_bind {A B : Type} (m : io A) (k : A -> io B) (f : FILE) :
  run (bind m k) f =
  match run m f with
  | (t1, f1, Some a) =>
      let '(t2, f2, r) := run (k a) f1 in (t1 ++ t2, f2, r)
  | (t1, f1, None) => (t1, f1, None)
  end.
Proof.
  revert f. induction m as [a | | X c k' IH]; intros f; cbn [bind run].
  - destruct (run (k a) f) as [[t2 f2] r]. reflexivity.
  - reflexivity.
  - destruct (libc_step c f) as [x f1]. rewrite IH.
    destruct (run (k' x) f1) as [[t1 f1'] [a |]].
    + destruct (run (k a) f1') as [[t2 f2] r]. reflexivity.
    + reflexivity.
Qed.

(** ** Byte blocks *)

Lemma slice_length (p n : Z) (d : buffer) :
  0 <= p -> 0 <= n -> p + n <= Z.of_nat (length d) ->
  Z.of_nat (length (slice p n d)) = n.
Proof.
  intros Hp Hn Hle. unfold slice.
  rewrite length_firstn, length_skipn. lia.
Qed.

Lemma write_at_length (p : Z) (b d : buffer) :
  0 <= p ->
  Z.of_nat (length (write_at p b d))
  = Z.max (Z.of_nat (length d)) (p + Z.of_nat (length b)).
Proof.
  intros Hp. unfold write_at.
  rewrite !length_app, length_firstn, length_app, repeat_length, length_skipn.
  lia.
Qed.

(** The bytes [b] are found where they were written, also inside a longer
    block [a ++ b ++ c]. *)
Lemma slice_write_at_mid (p : Z) (a b c d : buffer) :
  0 <= p ->
  slice (p + Z.of_nat (length a)) (Z.of_nat (length b))
    (write_at p (a ++ b ++ c) d) = b.
Proof.
  intros Hp. unfold slice, write_at.
  set (h := firstn (Z.to_nat p) (d ++ repeat Byte.x00 (Z.to_nat p - length d))).
  set (r := skipn (Z.to_nat p + length (a ++ b ++ c)) d).
  assert (Hh : length h = Z.to_nat p).
  { subst h. rewrite length_firstn, length_app, repeat_length. lia. }
  replace (h ++ (a ++ b ++ c) ++ r) with ((h ++ a) ++ b ++ c ++ r)
    by (rewrite <- !app_assoc; reflexivity).
  replace (Z.to_nat (p + Z.of_nat (length a))) with (length (h ++ a))
    by (rewrite length_app; lia).
  rewrite skipn_app, skipn_all, Nat.sub_diag. cbn [skipn app].
  rewrite Nat2Z.id, firstn_app, firstn_all, Nat.sub_diag. cbn [firstn].
  apply app_nil_r.
Qed.

Lemma slice_write_at (p : Z) (b d : buffer) :
  0 <= p -> slice p (Z.of_nat (length b)) (write_at p b d) = b.
Proof.
  intros Hp.
  pose proof (slice_write_at_mid p [] b [] d Hp) as H.
  cbn [length app] in H. rewrite Z.add_0_r, app_nil_r in H. exact H.
Qed.

Lemma store_prefix (got dst : buffer) :
  firstn (length got) (store got dst) = got.
Proof.
  unfold store. rewrite firstn_app, firstn_all, Nat.sub_diag. cbn [firstn].
  apply app_nil_r.
Qed.

Lemma store_suffix (got dst : buffer) :
  skipn (length got) (store got dst) = skipn (length got) dst.
Proof.
  unfold store. rewrite skipn_app, skipn_all, Nat.sub_diag. reflexivity.
Qed.



Lemma write_at_prefix (p : Z) (b d : buffer) :
  0 <= p ->
  firstn (Z.to_nat p) (write_at p b d)
  = firstn (Z.to_nat p) d ++ repeat Byte.x00 (Z.to_nat p - length d).
Proof.
  intros Hp. unfold write_at.
  set (h := firstn (Z.to_nat p) (d ++ repeat Byte.x00 (Z.to_nat p - length d))).
  assert (Hh : length h = Z.to_nat p).
  { subst h. rewrite length_firstn, length_app, repeat_length. lia. }
  rewrite firstn_app, Hh, Nat.sub_diag. cbn [firstn]. rewrite app_nil_r.
  rewrite <- Hh at 1. rewrite firstn_all. subst h.
  rewrite firstn_app. f_equal.
  apply firstn_all2. rewrite repeat_length. lia.
Qed.

Lemma write_at_suffix (p : Z) (b d : buffer) :
  0 <= p ->
  skipn (Z.to_nat p + length b) (write_at p b d)
  = skipn (Z.to_nat p + length b) d.
Proof.
  intros Hp. unfold write_at.
  set (h := firstn (Z.to_nat p) (d ++ repeat Byte.x00 (Z.to_nat p - length d))).
  assert (Hh : length h = Z.to_nat p).
  { subst h. rewrite length_firstn, length_app, repeat_length. lia. }
  rewrite app_assoc, skipn_app.
  rewrite skipn_all2 by (rewrite length_app; lia).
  rewrite length_app, Hh, Nat.sub_diag. reflexivity.
Qed.

(** ** The libc calls on the backend *)

Lemma posix_fstat_ok (f : FILE) :
  f_stat_err f = false ->
  posix_fstat (f_fd f) f = ((0, mk_stat (f_size f)), f).
Proof.
  intros H. unfold posix_fstat. rewrite H, Z.eqb_refl. reflexivity.
Qed.

Lemma posix_fstat_err (f : FILE) :
  f_stat_err f = true ->
  posix_fstat (f_fd f) f = ((-1, mk_stat 0), f).
Proof. intros H. unfold posix_fstat. rewrite H. reflexivity. Qed.

(** With nothing waiting a flush does nothing. *)
Lemma flush_out_idle (f : FILE) :
  f_pending f = [] -> flush_out f = (true, f).
Proof. intros H. unfold flush_out. rewrite H. reflexivity. Qed.

(** Waiting output that the device has room for reaches the device; the
    cursor stays. *)
Lemma flush_out_room (f : FILE) :
  f_pending f <> [] -> f_pos f <= f_limit f ->
  flush_out f
  = (true,
     set_data f (write_at (pending_start f) (f_pending f) (f_data f))
       (f_pos f)).
Proof.
  intros Hne Hle. unfold flush_out.
  destruct (f_pending f) as [| x l] eqn:E; [contradiction |].
  cbv zeta.
  replace (Z.of_nat (length (x :: l))
           <=? Z.max 0 (f_limit f - pending_start f)) with true;
    [reflexivity |].
  symmetry. apply Z.leb_le. unfold pending_start. rewrite E. lia.
Qed.


Lemma posix_fseek_idle (offset : Z) (w : whence) (f : FILE) :
  f_pending f = [] ->
  posix_fseek offset w f
  = let base := match w with
                | SEEK_SET => 0
                | SEEK_CUR => f_pos f
                | SEEK_END => f_size f
                end in
    if (base + offset <? 0) || (OFF_MAX <? base + offset) then (-1, f)
    else (0, set_pos f (base + offset)).
Proof.
  intros H. unfold posix_fseek. rewrite (flush_out_idle f H). reflexivity.
Qed.

Lemma posix_fread_idle (size nmemb : Z) (f : FILE) :
  f_pending f = [] ->
  posix_fread size nmemb f
  = if (size =? 0) || (nmemb =? 0) || negb (f_readable f) then ((0, []), f)
    else
      let k := Z.min (size * nmemb) (Z.max 0 (f_size f - f_pos f)) in
      ((k / size, slice (f_pos f) k (f_data f)), set_pos f (f_pos f + k)).
Proof.
  intros H. unfold posix_fread. rewrite (flush_out_idle f H). reflexivity.
Qed.

Lemma posix_fread_full (size : Z) (f : FILE) :
  f_pending f = [] ->
  0 < size -> f_readable f = true -> f_pos f + size <= f_size f ->
  posix_fread size 1 f
  = ((1, slice (f_pos f) size (f_data f)), set_pos f (f_pos f + size)).
Proof.
  intros Hq Hs Hr Hle. rewrite posix_fread_idle by exact Hq. rewrite Hr.
  replace (size =? 0) with false by (symmetry; apply Z.eqb_neq; lia).
  cbn [Z.eqb orb negb]. cbv zeta.
  replace (Z.min (size * 1) (Z.max 0 (f_size f - f_pos f))) with size by lia.
  rewrite Z.div_same by lia. reflexivity.
Qed.

Lemma posix_fread_short (size : Z) (f : FILE) :
  f_pending f = [] ->
  0 < size -> f_readable f = false \/ f_size f - f_pos f < size ->
  fst (fst (posix_fread size 1 f)) = 0.
Proof.
  intros Hq Hs H. rewrite posix_fread_idle by exact Hq.
  destruct ((size =? 0) || (1 =? 0) || negb (f_readable f)) eqn:E;
    [reflexivity |].
  cbv zeta. cbn [fst].
  destruct H as [H | H].
  - rewrite H in E. rewrite orb_true_r in E. discriminate.
  - apply Z.div_small. lia.
Qed.

Lemma posix_fwrite_nothing (ptr : buffer) (size nmemb : Z) (f : FILE) :
  size = 0 \/ nmemb = 0 -> posix_fwrite ptr size nmemb f = (0, f).
Proof.
  intros [-> | ->]; unfold posix_fwrite; cbn [Z.eqb orb];
    rewrite ?orb_true_r; reflexivity.
Qed.


Lemma posix_fwrite_buffered (ptr : buffer) (size nmemb : Z) (f : FILE) :
  0 < size -> 0 < nmemb -> f_writable f = true ->
  Z.of_nat (length (f_pending f)) + size * nmemb < f_bufsiz f ->
  posix_fwrite ptr size nmemb f
  = (nmemb,
     add_pending f (firstn (Z.to_nat (size * nmemb)) ptr)
       (f_pos f + size * nmemb)).
Proof.
  intros Hs Hn Hw Hfit. unfold posix_fwrite. rewrite Hw.
  replace (size =? 0) with false by (symmetry; apply Z.eqb_neq; lia).
  replace (nmemb =? 0) with false by (symmetry; apply Z.eqb_neq; lia).
  cbn [orb negb].
  replace (Z.of_nat (length (f_pending f)) + size * nmemb <? f_bufsiz f)
    with true by (symmetry; apply Z.ltb_lt; lia).
  reflexivity.
Qed.

(** A request that does not fit, on a stream with nothing waiting whose
    device has room for it, reaches the device whole. *)
Lemma posix_fwrite_through_idle (ptr : buffer) (size nmemb : Z) (f : FILE) :
  f_pending f = [] ->
  0 < size -> 0 < nmemb -> f_writable f = true ->
  f_bufsiz f <= size * nmemb ->
  f_pos f + size * nmemb <= f_limit f ->
  posix_fwrite ptr size nmemb f
  = (nmemb,
     set_data f
       (write_at (f_pos f) (firstn (Z.to_nat (size * nmemb)) ptr) (f_data f))
       (f_pos f + size * nmemb)).
Proof.
  intros Hq Hs Hn Hw Hbig Hroom. unfold posix_fwrite. rewrite Hw, Hq.
  replace (size =? 0) with false by (symmetry; apply Z.eqb_neq; lia).
  replace (nmemb =? 0) with false by (symmetry; apply Z.eqb_neq; lia).
  cbn [orb negb length Z.of_nat Z.add].
  replace (size * nmemb <? f_bufsiz f)
    with false by (symmetry; apply Z.ltb_ge; lia).
  assert (Hpos : 0 < size * nmemb) by nia.
  rewrite (flush_out_idle f Hq). cbn [negb]. cbv zeta.
  replace (Z.min (size * nmemb) (Z.max 0 (f_limit f - f_pos f)))
    with (size * nmemb) by lia.
  replace (size * nmemb =? 0) with false
    by (symmetry; apply Z.eqb_neq; lia).
  rewrite Z.mul_comm, Z.div_mul by lia. rewrite (Z.mul_comm nmemb size).
  reflexivity.
Qed.

(** The same with output waiting that the device has room for: the
    waiting output goes first. *)
Lemma posix_fwrite_through (ptr : buffer) (size nmemb : Z) (f : FILE) :
  0 < size -> 0 < nmemb -> f_writable f = true ->
  0 <= pending_start f ->
  f_bufsiz f <= Z.of_nat (length (f_pending f)) + size * nmemb ->
  f_pos f + size * nmemb <= f_limit f ->
  exists d,
    Z.of_nat (length d) <= Z.max (f_size f) (f_pos f)
    /\ posix_fwrite ptr size nmemb f
       = (nmemb,
          set_data f
            (write_at (f_pos f) (firstn (Z.to_nat (size * nmemb)) ptr) d)
            (f_pos f + size * nmemb)).
Proof.
  intros Hs Hn Hw Hst Hbig Hroom. unfold posix_fwrite. rewrite Hw.
  replace (size =? 0) with false by (symmetry; apply Z.eqb_neq; lia).
  replace (nmemb =? 0) with false by (symmetry; apply Z.eqb_neq; lia).
  cbn [orb negb].
  replace (Z.of_nat (length (f_pending f)) + size * nmemb <? f_bufsiz f)
    with false by (symmetry; apply Z.ltb_ge; lia).
  assert (Hpos : 0 < size * nmemb) by nia.
  destruct (f_pending f) as [| x l] eqn:E.
  - exists (f_data f). split; [unfold f_size; lia |].
    rewrite (flush_out_idle f E). cbn [negb]. cbv zeta.
    replace (Z.min (size * nmemb) (Z.max 0 (f_limit f - f_pos f)))
      with (size * nmemb) by lia.
    replace (size * nmemb =? 0) with false
      by (symmetry; apply Z.eqb_neq; lia).
    rewrite Z.mul_comm, Z.div_mul by lia. rewrite (Z.mul_comm nmemb size).
    destruct f; cbn in *; subst; reflexivity.
  - exists (write_at (pending_start f) (f_pending f) (f_data f)). split.
    + rewrite write_at_length by exact Hst.
      unfold pending_start, f_size. lia.
    + rewrite flush_out_room by (rewrite ?E; try discriminate; lia).
      cbn [negb]. cbv zeta. cbn [set_data f_limit f_pos f_data].
      replace (Z.min (size * nmemb) (Z.max 0 (f_limit f - f_pos f)))
        with (size * nmemb) by lia.
      replace (size * nmemb =? 0) with false
        by (symmetry; apply Z.eqb_neq; lia).
      rewrite Z.mul_comm, Z.div_mul by lia. rewrite (Z.mul_comm nmemb size).
      reflexivity.
Qed.

(** ** The operations on a constructed stream *)

(** The size query on a constructed stream: two calls, no seek. *)
Lemma run_getsize (file : FILEptr) (f : FILE) (v : Z) :
  run (ktxFileStream_getsize (Some (fileStream file)) (Some v)) f
  = ([FILENO; FSTAT], f,
     Some (if f_stat_err f then (KTX_FILE_WRITE_ERROR, Some v)
           else (KTX_SUCCESS, Some (to_size_t (f_size f))))).
Proof.
  cbn [ktxFileStream_getsize fileStream type data_file streamType_eqb
       assert bind call run libc_step libfn_of].
  destruct (f_stat_err f) eqn:E.
  - rewrite (posix_fstat_err f E). reflexivity.
  - rewrite (posix_fstat_ok f E). reflexivity.
Qed.

(** What [ktxFileStream_setpos] does once the size query has answered. *)
Lemma run_setpos_gen (junk : Z) (file : FILEptr) (f : FILE) (pos : Z) :
  run (ktxFileStream_setpos junk (Some (fileStream file)) pos) f
  = let fileSize := if f_stat_err f then junk else to_size_t (f_size f) in
    if to_size_t pos >? fileSize
    then ([FILENO; FSTAT], f, Some KTX_INVALID_OPERATION)
    else
      let '(rc, f') := posix_fseek pos SEEK_SET f in
      ([FILENO; FSTAT; FSEEKO], f',
       Some (if rc <? 0 then KTX_INVALID_OPERATION else KTX_SUCCESS)).
Proof.
  unfold ktxFileStream_setpos.
  cbn [fileStream type getsize data_file streamType_eqb assert bind
       call_getsize].
  rewrite run_bind, run_getsize.
  destruct (f_stat_err f); cbn [snd];
    match goal with |- context [?a >? ?b] => destruct (a >? b) end;
    cbn [run bind call libc_step libfn_of app]; try reflexivity;
    destruct (posix_fseek pos SEEK_SET f) as [rc f'];
    destruct (rc <? 0); reflexivity.
Qed.

Lemma run_setpos (junk : Z) (file : FILEptr) (f : FILE) (pos : Z) :
  f_pending f = [] ->
  run (ktxFileStream_setpos junk (Some (fileStream file)) pos) f
  = let fileSize := if f_stat_err f then junk else to_size_t (f_size f) in
    if to_size_t pos >? fileSize
    then ([FILENO; FSTAT], f, Some KTX_INVALID_OPERATION)
    else if (pos <? 0) || (OFF_MAX <? pos)
         then ([FILENO; FSTAT; FSEEKO], f, Some KTX_INVALID_OPERATION)
         else ([FILENO; FSTAT; FSEEKO], set_pos f pos, Some KTX_SUCCESS).
Proof.
  intros Hq. rewrite run_setpos_gen, posix_fseek_idle by exact Hq.
  cbv zeta. cbn [Z.add].
  destruct (_ >? _); [reflexivity |].
  destruct ((pos <? 0) || (OFF_MAX <? pos)); reflexivity.
Qed.

Lemma run_read (file : FILEptr) (f : FILE) (d : buffer) (size : Z) :
  run (ktxFileStream_read (Some (fileStream file)) (Some d) size) f
  = let '((n, got), f') := posix_fread (to_size_t size) 1 f in
    ([FREAD], f',
     Some (if negb (n =? 1) then KTX_UNEXPECTED_END_OF_FILE else KTX_SUCCESS,
           Some (store got d))).
Proof.
  cbn [ktxFileStream_read fileStream type data_file streamType_eqb
       assert bind call run libc_step libfn_of].
  destruct (posix_fread (to_size_t size) 1 f) as [[n got] f'].
  destruct (negb (n =? 1)); reflexivity.
Qed.

Lemma run_write (file : FILEptr) (f : FILE) (b : buffer) (size count : Z) :
  run (ktxFileStream_write (Some (fileStream file)) (Some b) size count) f
  = let '(n, f') := posix_fwrite b (to_size_t size) (to_size_t count) f in
    ([FWRITE], f',
     Some (if negb (n =? to_size_t count) then KTX_FILE_WRITE_ERROR
           else KTX_SUCCESS)).
Proof.
  cbn [ktxFileStream_write fileStream type data_file streamType_eqb
       assert bind call run libc_step libfn_of].
  destruct (posix_fwrite b (to_size_t size) (to_size_t count) f) as [n f'].
  destruct (negb (n =? to_size_t count)); reflexivity.
Qed.

Lemma run_skip_gen (file : FILEptr) (f : FILE) (count : Z) :
  0 <= count ->
  run (ktxFileStream_skip (Some (fileStream file)) count) f
  = let '(rc, f') := posix_fseek count SEEK_CUR f in
    ([FSEEK], f',
     Some (if negb (rc =? 0) then KTX_UNEXPECTED_END_OF_FILE
           else KTX_SUCCESS)).
Proof.
  intros Hc. unfold ktxFileStream_skip.
  replace (count <? 0) with false by (symmetry; apply Z.ltb_ge; lia).
  cbn [fileStream type data_file streamType_eqb
       assert bind call run libc_step libfn_of].
  destruct (posix_fseek count SEEK_CUR f) as [rc f'].
  destruct (negb (rc =? 0)); reflexivity.
Qed.

Lemma run_skip (file : FILEptr) (f : FILE) (count : Z) :
  f_pending f = [] -> 0 <= count ->
  run (ktxFileStream_skip (Some (fileStream file)) count) f
  = if (f_pos f + count <? 0) || (OFF_MAX <? f_pos f + count)
    then ([FSEEK], f, Some KTX_UNEXPECTED_END_OF_FILE)
    else ([FSEEK], set_pos f (f_pos f + count), Some KTX_SUCCESS).
Proof.
  intros Hq Hc. rewrite run_skip_gen, posix_fseek_idle by assumption.
  cbv zeta.
  destruct ((f_pos f + count <? 0) || (OFF_MAX <? f_pos f + count));
    reflexivity.
Qed.

Lemma run_getpos (file : FILEptr) (f : FILE) (v : Z) :
  run (ktxFileStream_getpos (Some (fileStream file)) (Some v)) f
  = ([FTELLO], f, Some (KTX_SUCCESS, Some (f_pos f))).
Proof. reflexivity. Qed.

(** ** Argument guards *)

(** C5: every operation called with a NULL stream, with a NULL buffer or
    output location, or (skip) with a negative count, returns
    KTX_INVALID_VALUE; no libc call is issued and the file is untouched. *)
Theorem invalid_argument_before_io (f : FILE) :
  (forall dst size,
      run (ktxFileStream_read None dst size) f
      = ([], f, Some (KTX_INVALID_VALUE, dst)))
  /\ (forall str size,
      run (ktxFileStream_read str None size) f
      = ([], f, Some (KTX_INVALID_VALUE, None)))
  /\ (forall src size count,
      run (ktxFileStream_write None src size count) f
      = ([], f, Some KTX_INVALID_VALUE))
  /\ (forall str size count,
      run (ktxFileStream_write str None size count) f
      = ([], f, Some KTX_INVALID_VALUE))
  /\ (forall count,
      run (ktxFileStream_skip None count) f
      = ([], f, Some KTX_INVALID_VALUE))
  /\ (forall str (n : positive),
      run (ktxFileStream_skip str (Z.neg n)) f
      = ([], f, Some KTX_INVALID_VALUE))
  /\ (forall pos,
      run (ktxFileStream_getpos None pos) f
      = ([], f, Some (KTX_INVALID_VALUE, pos)))
  /\ (forall str,
      run (ktxFileStream_getpos str None) f
      = ([], f, Some (KTX_INVALID_VALUE, None)))
  /\ (forall junk pos,
      run (ktxFileStream_setpos junk None pos) f
      = ([], f, Some KTX_INVALID_VALUE))
  /\ (forall size,
      run (ktxFileStream_getsize None size) f
      = ([], f, Some (KTX_INVALID_VALUE, size)))
  /\ (forall str,
      run (ktxFileStream_getsize str None) f
      = ([], f, Some (KTX_INVALID_VALUE, None))).
Proof.
  repeat split; intros; try reflexivity;
    match goal with
    | str : option ktxStream |- _ => destruct str; reflexivity
    end.
Qed.

(** ** read of zero bytes *)

(** C9: on a constructed stream, [read(dst, 0)] issues one fread, which
    reports zero items, and returns KTX_UNEXPECTED_END_OF_FILE; file and
    destination are as before. *)
Theorem read_zero_bytes_fails (file : FILEptr) (f : FILE) (d : buffer) :
  run (ktxFileStream_read (Some (fileStream file)) (Some d) 0) f
  = ([FREAD], f, Some (KTX_UNEXPECTED_END_OF_FILE, Some d)).
Proof. reflexivity. Qed.

(** ** getsize *)

(** C8: on a constructed stream, getsize issues fileno and fstat only and
    leaves the file, cursor included, as it was.  When fstat answers, the
    output holds the file's byte count and the result is KTX_SUCCESS; when
    fstat fails the result is KTX_FILE_WRITE_ERROR and the output is not
    written. *)
Theorem getsize_by_metadata_query (file : FILEptr) (f : FILE) (v : Z) :
  f_size f <= OFF_MAX ->
  run (ktxFileStream_getsize (Some (fileStream file)) (Some v)) f
  = ([FILENO; FSTAT], f,
     Some (if f_stat_err f then (KTX_FILE_WRITE_ERROR, Some v)
           else (KTX_SUCCESS, Some (f_size f)))).
Proof.
  intros H. rewrite run_getsize, to_size_t_id. reflexivity.
  pose proof (f_size_nonneg f). unfold OFF_MAX, SIZE_MAX in *. lia.
Qed.

Lemma getsize_by_metadata_query_witness :
  f_size file100 <= OFF_MAX
  /\ run (ktxFileStream_getsize (Some (fileStream 1%nat)) (Some 7)) file100
     = ([FILENO; FSTAT], file100, Some (KTX_SUCCESS, Some 100)).
Proof.
  split; [vm_compute; discriminate |].
  apply (getsize_by_metadata_query 1%nat file100 7). vm_compute. discriminate.
Defined.

(** ** setpos *)

(** C3: on a constructed stream whose size query answers, an offset
    greater than the size is refused with KTX_INVALID_OPERATION after
    fileno and fstat alone: no seek is issued and the file, cursor
    included, is unchanged. *)
Theorem setpos_beyond_size_rejected (junk : Z) (file : FILEptr) (f : FILE)
    (pos : Z) :
  f_stat_err f = false ->
  f_size f <= OFF_MAX ->
  f_size f < pos <= OFF_MAX ->
  run (ktxFileStream_setpos junk (Some (fileStream file)) pos) f
  = ([FILENO; FSTAT], f, Some KTX_INVALID_OPERATION).
Proof.
  intros Hs Hsz Hp. rewrite run_setpos_gen, Hs. cbv zeta.
  pose proof (f_size_nonneg f).
  rewrite !to_size_t_id by (unfold OFF_MAX, SIZE_MAX in *; lia).
  replace (pos >? f_size f) with true by (symmetry; apply Z.gtb_lt; lia).
  reflexivity.
Qed.

Lemma setpos_beyond_size_rejected_witness :
  run (ktxFileStream_setpos 0 (Some (fileStream 1%nat)) 101) file100
  = ([FILENO; FSTAT], file100, Some KTX_INVALID_OPERATION).
Proof.
  apply (setpos_beyond_size_rejected 0 1%nat file100 101).
  - reflexivity.
  - vm_compute. discriminate.
  - unfold OFF_MAX. vm_compute. split; [reflexivity | discriminate].
Defined.

(** C10: on a constructed stream every negative offset is refused with
    KTX_INVALID_OPERATION, never with KTX_INVALID_VALUE.  When the size
    query answers, the offset converted to size_t exceeds the size, and
    the refusal comes after fileno and fstat alone, before any seek, so
    the file is unchanged.  The file is unchanged as well whenever no
    output is waiting in the stdio buffer. *)
Theorem setpos_negative_offset (junk : Z) (file : FILEptr) (f : FILE)
    (pos : Z) :
  - 2 ^ 63 <= pos < 0 ->
  let o := run (ktxFileStream_setpos junk (Some (fileStream file)) pos) f in
  returned o = Some KTX_INVALID_OPERATION
  /\ (f_pending f = [] -> file_after o = f)
  /\ (f_stat_err f = false -> f_size f <= OFF_MAX ->
      to_size_t pos > f_size f /\ calls o = [FILENO; FSTAT]
      /\ file_after o = f).
Proof.
  intros Hp o. subst o.
  assert (Hneg : (0 + pos <? 0) || (OFF_MAX <? 0 + pos) = true)
    by (apply orb_true_iff; left; apply Z.ltb_lt; lia).
  split; [| split].
  - rewrite run_setpos_gen. cbv zeta.
    destruct (_ >? _); [reflexivity |].
    unfold posix_fseek. destruct (flush_out f) as [[|] f1]; cbn [negb].
    + cbv zeta. rewrite Hneg. reflexivity.
    + reflexivity.
  - intros Hq. rewrite run_setpos by exact Hq. cbv zeta.
    cbn [Z.add] in Hneg. rewrite Hneg.
    destruct (_ >? _); reflexivity.
  - intros Hst Hsz. rewrite run_setpos_gen, Hst. cbv zeta.
    pose proof (f_size_nonneg f).
    rewrite (to_size_t_id (f_size f)) by (unfold OFF_MAX, SIZE_MAX in *; lia).
    rewrite to_size_t_neg by lia.
    replace (pos + 2 ^ 64 >? f_size f) with true
      by (symmetry; apply Z.gtb_lt; unfold OFF_MAX in *; lia).
    repeat split. unfold OFF_MAX in *. lia.
Qed.

Lemma setpos_negative_offset_witness :
  returned (run (ktxFileStream_setpos 0 (Some (fileStream 1%nat)) (-1))
              file100)
  = Some KTX_INVALID_OPERATION
  /\ calls (run (ktxFileStream_setpos 0 (Some (fileStream 1%nat)) (-1))
              file100)
     = [FILENO; FSTAT]
  /\ file_after (run (ktxFileStream_setpos 0 (Some (fileStream 1%nat)) (-1))
                   file100)
     = file100.
Proof.
  assert (Hp : - 2 ^ 63 <= -1 < 0) by lia.
  destruct (setpos_negative_offset 0 1%nat file100 (-1) Hp) as (Hr & _ & Hc).
  split; [exact Hr |].
  destruct Hc as (_ & Hcalls & Hfile);
    [reflexivity | vm_compute; discriminate |].
  split; [exact Hcalls | exact Hfile].
Defined.

(** ** read *)

(** C6: on a constructed stream with no output waiting, a read of
    [size > 0] bytes issues one fread.  It succeeds exactly when the
    stream is readable and [size] bytes remain; the first [size] bytes of
    the destination are then the [size] bytes the file holds from the
    cursor on, the rest of the destination is as before, the cursor has
    advanced by [size] and the file's content is as before.  Any other
    outcome is KTX_UNEXPECTED_END_OF_FILE, in particular when fewer than
    [size] bytes remain: a partial transfer is never a success. *)
Theorem read_all_or_nothing (file : FILEptr) (f : FILE) (d : buffer)
    (size : Z) :
  f_pending f = [] -> 0 < size <= INT_MAX -> 0 <= f_pos f ->
  exists code d' f',
    run (ktxFileStream_read (Some (fileStream file)) (Some d) size) f
    = ([FREAD], f', Some (code, Some d'))
    /\ (code = KTX_SUCCESS ->
        firstn (Z.to_nat size) d'
        = firstn (Z.to_nat size) (skipn (Z.to_nat (f_pos f)) (f_data f))
        /\ length (firstn (Z.to_nat size) d') = Z.to_nat size
        /\ skipn (Z.to_nat size) d' = skipn (Z.to_nat size) d
        /\ f_pos f' = f_pos f + size
        /\ f_data f' = f_data f)
    /\ (code <> KTX_SUCCESS -> code = KTX_UNEXPECTED_END_OF_FILE)
    /\ (f_size f - f_pos f < size -> code = KTX_UNEXPECTED_END_OF_FILE)
    /\ (f_readable f = true -> f_pos f + size <= f_size f ->
        code = KTX_SUCCESS).
Proof.
  intros Hq Hs Hp. rewrite run_read.
  rewrite to_size_t_id by (unfold INT_MAX, SIZE_MAX in *; lia).
  destruct (f_readable f) eqn:Hr;
    [destruct (Z_le_gt_dec (f_pos f + size) (f_size f)) as [Hle | Hgt] |].
  - rewrite posix_fread_full by (assumption || lia).
    exists KTX_SUCCESS, (store (slice (f_pos f) size (f_data f)) d),
      (set_pos f (f_pos f + size)).
    cbn [Z.eqb Pos.eqb negb].
    assert (Hlen : length (slice (f_pos f) size (f_data f)) = Z.to_nat size).
    { apply Nat2Z.inj. rewrite slice_length; unfold f_size in *; lia. }
    split; [reflexivity |].
    split; [intros _ | repeat split; try congruence; try lia].
    repeat split.
    + rewrite <- Hlen at 1. rewrite store_prefix. reflexivity.
    + rewrite <- Hlen at 1. rewrite store_prefix. exact Hlen.
    + rewrite <- Hlen. apply store_suffix.
  - assert (H0 : fst (fst (posix_fread size 1 f)) = 0)
      by (apply posix_fread_short; [exact Hq | lia | right; lia]).
    destruct (posix_fread size 1 f) as [[n got] f']. cbn [fst] in H0. subst n.
    exists KTX_UNEXPECTED_END_OF_FILE, (store got d), f'. cbn [Z.eqb negb].
    repeat split; try congruence; try lia.
  - assert (H0 : fst (fst (posix_fread size 1 f)) = 0)
      by (apply posix_fread_short; [exact Hq | lia | left; exact Hr]).
    destruct (posix_fread size 1 f) as [[n got] f']. cbn [fst] in H0. subst n.
    exists KTX_UNEXPECTED_END_OF_FILE, (store got d), f'. cbn [Z.eqb negb].
    repeat split; try congruence; try lia.
Qed.

Lemma read_all_or_nothing_witness :
  exists d' f',
    run (ktxFileStream_read (Some (fileStream 1%nat))
           (Some (repeat Byte.xff 5)) 3) (sample_file digits 2 true false)
    = ([FREAD], f', Some (KTX_SUCCESS, Some d'))
    /\ firstn 3 d' = [Byte.x03; Byte.x04; Byte.x05]
    /\ skipn 3 d' = [Byte.xff; Byte.xff]
    /\ f_pos f' = 5.
Proof.
  assert (Hs : 0 < 3 <= INT_MAX) by (unfold INT_MAX; lia).
  assert (Hp : 0 <= f_pos (sample_file digits 2 true false)) by (cbn; lia).
  destruct (read_all_or_nothing 1%nat (sample_file digits 2 true false)
              (repeat Byte.xff 5) 3 eq_refl Hs Hp)
    as (code & d' & f' & Hrun & Hsucc & _ & _ & Hok).
  assert (Hc : code = KTX_SUCCESS)
    by (apply Hok; [reflexivity | vm_compute; discriminate]).
  subst code. destruct (Hsucc eq_refl) as (Hfirst & _ & Hrest & Hpos & _).
  exists d', f'. repeat split; assumption.
Defined.

(** ** write *)

(** After a write that only filled the buffer, a skip of no bytes passes
    the bytes to the device. *)
Lemma skip0_after_buffered_write (file : FILEptr) (f : FILE) (b : buffer)
    (n : Z) :
  f_pending f = [] -> b <> [] -> Z.of_nat (length b) = n ->
  0 <= f_pos f -> f_pos f + n <= f_limit f -> f_limit f <= OFF_MAX ->
  run (ktxFileStream_skip (Some (fileStream file)) 0)
      (add_pending f b (f_pos f + n))
  = ([FSEEK], set_data f (write_at (f_pos f) b (f_data f)) (f_pos f + n),
     Some KTX_SUCCESS).
Proof.
  intros Hq Hne Hlen Hp Hroom Hlim.
  rewrite run_skip_gen by lia. unfold posix_fseek.
  rewrite flush_out_room
    by (cbn [add_pending f_pending f_pos f_limit];
        rewrite ?Hq; cbn [app]; first [exact Hne | lia]).
  cbn [negb]. cbv zeta.
  unfold pending_start.
  cbn [add_pending set_data f_pending f_pos f_limit f_data f_bufsiz
       f_readable f_writable f_fd f_stat_err].
  rewrite Hq. cbn [app]. rewrite Hlen.
  replace (f_pos f + n - n) with (f_pos f) by lia.
  replace ((f_pos f + n + 0 <? 0) || (OFF_MAX <? f_pos f + n + 0)) with false
    by (symmetry; apply orb_false_iff; split; apply Z.ltb_ge; lia).
  rewrite Z.add_0_r. reflexivity.
Qed.





(** ** write followed by read *)

(** C2, as amended: for a non-empty byte sequence of at most INT_MAX
    bytes, on a well-formed file open for reading and for writing whose
    size query answers, whose cursor does not lie beyond the size on the
    device and whose device has room for the bytes: the write at the
    cursor, setpos back to that offset and the read of the same number of
    bytes all succeed, and the destination starts with exactly the bytes
    written. *)
Theorem round_trip_nonempty (f : FILE) (junk : Z) (file : FILEptr)
    (src dst : buffer) (size count : Z) :
  wf_FILE f -> f_pos f <= f_size f ->
  f_readable f = true -> f_writable f = true -> f_stat_err f = false ->
  0 < size -> 0 < count ->
  size * count = Z.of_nat (length src) -> size * count <= INT_MAX ->
  f_pos f + size * count <= f_limit f ->
  round_trip f junk file src dst size count.
Proof.
  intros (Hpos & Hlim & Hstart) Hin Hr Hw Hst Hs Hc Hlen Hmax Hroom.
  assert (Hs' : 0 < size <= INT_MAX) by nia.
  assert (Hc' : 0 < count <= INT_MAX) by nia.
  assert (Hn : 0 < size * count) by nia.
  assert (Hsrc : src <> [])
    by (intros E; rewrite E in Hlen; cbn in Hlen; lia).
  pose proof (f_size_nonneg f) as H0.
  unfold round_trip, write_then_read.
  rewrite run_bind, run_write.
  rewrite !to_size_t_id by (unfold INT_MAX, SIZE_MAX in *; lia).
  destruct (Z_lt_ge_dec (Z.of_nat (length (f_pending f)) + size * count)
              (f_bufsiz f)) as [Hfit | Hbig].
  - (* the bytes wait in the buffer until setpos seeks *)
    rewrite posix_fwrite_buffered by (assumption || lia).
    rewrite Hlen, Nat2Z.id, firstn_all, <- Hlen.
    rewrite Z.eqb_refl. cbn [negb].
    set (f1 := add_pending f src (f_pos f + size * count)).
    rewrite run_bind, run_setpos_gen.
    change (f_stat_err f1) with (f_stat_err f).
    change (f_size f1) with (f_size f). rewrite Hst. cbv zeta.
    rewrite !to_size_t_id by (unfold OFF_MAX, SIZE_MAX in *; lia).
    replace (f_pos f >? f_size f) with false
      by (symmetry; rewrite Z.gtb_ltb; apply Z.ltb_ge; lia).
    unfold posix_fseek.
    rewrite flush_out_room
      by (subst f1; cbn [add_pending f_pending f_pos f_limit];
          first [lia | intros E; apply app_eq_nil in E; tauto]).
    cbn [negb]. cbv zeta. cbn [Z.add].
    replace ((f_pos f <? 0) || (OFF_MAX <? f_pos f)) with false
      by (symmetry; apply orb_false_iff; split; apply Z.ltb_ge; lia).
    cbn [Z.ltb Z.compare].
    set (d2 := write_at (pending_start f1) (f_pending f1) (f_data f1)).
    set (f3 := set_pos (set_data f1 d2 (f_pos f1)) (f_pos f)).
    assert (Hps : pending_start f1 = pending_start f).
    { unfold pending_start. subst f1. cbn [add_pending f_pending f_pos].
      rewrite length_app. lia. }
    assert (Hsz3 : f_size f3 = Z.max (f_size f) (f_pos f + size * count)).
    { unfold f_size at 1. subst f3 d2. cbn [set_pos set_data f_data].
      rewrite write_at_length by (rewrite Hps; exact Hstart).
      rewrite Hps. subst f1. cbn [add_pending f_pending f_data].
      rewrite length_app. unfold pending_start, f_size in *. lia. }
    rewrite run_bind, run_read.
    rewrite to_size_t_id by (unfold INT_MAX, SIZE_MAX in *; lia).
    rewrite posix_fread_full
      by (first [reflexivity | exact Hr | lia
                | change (f_pos f3) with (f_pos f); lia]).
    cbn [Z.eqb Pos.eqb negb run app].
    do 3 eexists. split; [reflexivity |].
    change (f_pos f3) with (f_pos f). change (f_data f3) with d2.
    subst d2. rewrite Hps. subst f1. cbn [add_pending f_pending f_data].
    replace (f_pos f)
      with (pending_start f + Z.of_nat (length (f_pending f)))
      by (unfold pending_start; lia).
    rewrite Hlen.
    replace (f_pending f ++ src) with (f_pending f ++ src ++ [])
      by (rewrite app_nil_r; reflexivity).
    rewrite slice_write_at_mid by exact Hstart. apply store_prefix.
  - (* the bytes go to the device at once *)
    destruct (posix_fwrite_through src size count f Hs Hc Hw Hstart
                ltac:(lia) Hroom) as (d & Hd & Hwr).
    rewrite Hwr. rewrite Hlen, Nat2Z.id, firstn_all, <- Hlen.
    rewrite Z.eqb_refl. cbn [negb].
    set (d2 := write_at (f_pos f) src d).
    set (f1 := set_data f d2 (f_pos f + size * count)).
    assert (Hsz1 : f_size f1 = Z.max (Z.of_nat (length d))
                                 (f_pos f + size * count)).
    { unfold f_size. subst f1 d2. cbn [set_data f_data].
      rewrite write_at_length by lia. lia. }
    rewrite run_bind, run_setpos by reflexivity.
    change (f_stat_err f1) with (f_stat_err f). rewrite Hst. cbv zeta.
    rewrite !to_size_t_id by (unfold OFF_MAX, SIZE_MAX in *; lia).
    replace (f_pos f >? f_size f1) with false
      by (symmetry; rewrite Z.gtb_ltb; apply Z.ltb_ge; lia).
    replace ((f_pos f <? 0) || (OFF_MAX <? f_pos f)) with false
      by (symmetry; apply orb_false_iff; split; apply Z.ltb_ge; lia).
    rewrite run_bind, run_read.
    rewrite to_size_t_id by (unfold INT_MAX, SIZE_MAX in *; lia).
    rewrite posix_fread_full
      by (first [reflexivity | exact Hr | lia
                | change (f_size (set_pos f1 (f_pos f))) with (f_size f1);
                  cbn [set_pos f_pos]; lia]).
    cbn [Z.eqb Pos.eqb negb run app set_pos f_pos f_data].
    do 3 eexists. split; [reflexivity |].
    subst f1 d2. cbn [set_data f_data].
    rewrite Hlen, slice_write_at by lia. apply store_prefix.
Qed.

Lemma round_trip_nonempty_witness :
  round_trip (sample_file digits 4 true true) 0 1%nat
    [Byte.xaa; Byte.xbb; Byte.xcc; Byte.xdd; Byte.xee; Byte.xff]
    (repeat Byte.x00 6) 2 3.
Proof.
  apply round_trip_nonempty.
  - unfold wf_FILE. vm_compute. repeat split; discriminate.
  - vm_compute. discriminate.
  - reflexivity.
  - reflexivity.
  - reflexivity.
  - lia.
  - lia.
  - reflexivity.
  - unfold INT_MAX. vm_compute. discriminate.
  - vm_compute. discriminate.
Defined.

(** C2, as stated, fails in each of these cases: for the empty byte
    sequence (the read of zero bytes does not succeed); at an offset
    beyond the size on the device (setpos refuses it, the bytes just
    written being still in the stdio buffer); on a stream not open for
    reading; on a stream not open for writing; when the size query fails
    (setpos compares with a stale value); and when the device has no room
    for the bytes (the seek that flushes them fails). *)
Lemma round_trip_fails :
  ~ round_trip empty_file 0 1%nat [] [] 1 0
  /\ ~ round_trip (sample_file (bytes_of 4) 6 true true) 0 1%nat
         (bytes_of 10) (repeat Byte.x00 10) 1 10
  /\ ~ round_trip (sample_file (bytes_of 20) 0 false true) 0 1%nat
         (bytes_of 10) (repeat Byte.x00 10) 1 10
  /\ ~ round_trip (sample_file (bytes_of 20) 0 true false) 0 1%nat
         (bytes_of 10) (repeat Byte.x00 10) 1 10
  /\ ~ round_trip stat_broken 0 1%nat
         (bytes_of 5) (repeat Byte.x00 5) 1 5
  /\ ~ round_trip small_device 0 1%nat
         (bytes_of 10) (repeat Byte.x00 10) 1 10.
Proof.
  repeat split; intros (t & f' & d & H & _); vm_compute in H;
    discriminate H.
Qed.

(** ** The cursor and the size *)

(** skip hands the count to fseek and checks nothing against the size:
    with no output waiting, any forward move that off_t can hold
    succeeds. *)
Lemma skip_succeeds_whatever_the_size (file : FILEptr) (f : FILE)
    (count : Z) :
  f_pending f = [] ->
  0 <= count -> 0 <= f_pos f -> f_pos f + count <= OFF_MAX ->
  run (ktxFileStream_skip (Some (fileStream file)) count) f
  = ([FSEEK], set_pos f (f_pos f + count), Some KTX_SUCCESS).
Proof.
  intros Hq Hc Hp Hle. rewrite run_skip by assumption.
  replace ((f_pos f + count <? 0) || (OFF_MAX <? f_pos f + count)) with false
    by (symmetry; apply orb_false_iff; split; apply Z.ltb_ge; lia).
  reflexivity.
Qed.

(** C4, at the scenario of the specification: the 100-byte file is open
    read-only with the cursor at 50, so 60 more bytes are not there; yet
    skip(60) returns KTX_SUCCESS and leaves the cursor at 110. *)
Example skip_past_end_reports_success :
  f_writable file100 = false
  /\ f_size file100 = 100
  /\ f_pos file100 = 50
  /\ run (ktxFileStream_skip (Some (fileStream 1%nat)) 60) file100
     = ([FSEEK], set_pos file100 110, Some KTX_SUCCESS).
Proof. repeat split. Qed.

(** C1, at the same input: the cursor is within the data before the call;
    after the successful skip(60), getpos reports 110 and getsize reports
    100, so the cursor is no longer within the data. *)
Example skip_breaks_pos_in_range :
  pos_in_range file100
  /\ run (skip_then_query (Some (fileStream 1%nat)) 60) file100
     = ([FSEEK; FTELLO; FILENO; FSTAT], set_pos file100 110,
        Some (KTX_SUCCESS, (KTX_SUCCESS, Some 110), (KTX_SUCCESS, Some 100)))
  /\ ~ pos_in_range (set_pos file100 110).
Proof.
  split; [| split].
  - unfold pos_in_range. vm_compute. split; discriminate.
  - reflexivity.
  - unfold pos_in_range. vm_compute. intros [_ H]. apply H. reflexivity.
Qed.

(** With no output waiting, read, setpos and the queries keep the cursor
    within the data. *)

Lemma read_keeps_pos_in_range (file : FILEptr) (f : FILE) (d : buffer)
    (size : Z) :
  f_pending f = [] -> pos_in_range f ->
  pos_in_range
    (file_after (run (ktxFileStream_read (Some (fileStream file)) (Some d)
                        size) f)).
Proof.
  intros Hq [Hlo Hhi]. rewrite run_read, posix_fread_idle by exact Hq.
  assert (Hsz : 0 <= to_size_t size)
    by (unfold to_size_t; apply Z.mod_pos_bound; lia).
  destruct ((to_size_t size =? 0) || (1 =? 0) || negb (f_readable f)).
  - cbn. split; assumption.
  - cbv zeta. unfold file_after, pos_in_range, f_size.
    cbn [fst snd set_pos f_pos f_data]. unfold f_size in *. lia.
Qed.

Lemma setpos_keeps_pos_in_range (junk : Z) (file : FILEptr) (f : FILE)
    (pos : Z) :
  f_pending f = [] ->
  f_stat_err f = false -> f_size f <= OFF_MAX -> off_t_range pos ->
  let o := run (ktxFileStream_setpos junk (Some (fileStream file)) pos) f in
  returned o = Some KTX_SUCCESS -> pos_in_range (file_after o).
Proof.
  intros Hq Hst Hsz [Hlo Hhi] o. subst o.
  rewrite run_setpos by exact Hq. rewrite Hst. cbv zeta.
  pose proof (f_size_nonneg f) as H0.
  rewrite (to_size_t_id (f_size f)) by (unfold OFF_MAX, SIZE_MAX in *; lia).
  destruct (to_size_t pos >? f_size f) eqn:Hgt; [discriminate |].
  destruct ((pos <? 0) || (OFF_MAX <? pos)) eqn:Hneg; [discriminate |].
  intros _. apply orb_false_iff in Hneg. destruct Hneg as [Hn _].
  apply Z.ltb_ge in Hn.
  rewrite to_size_t_id in Hgt by (unfold OFF_MAX, SIZE_MAX in *; lia).
  rewrite Z.gtb_ltb in Hgt. apply Z.ltb_ge in Hgt.
  unfold file_after, pos_in_range. cbn [fst snd set_pos f_pos].
  change (f_size (set_pos f pos)) with (f_size f). lia.
Qed.

Lemma queries_keep_the_file (file : FILEptr) (f : FILE) (v : Z) :
  file_after (run (ktxFileStream_getpos (Some (fileStream file)) (Some v)) f)
  = f
  /\ file_after (run (ktxFileStream_getsize (Some (fileStream file))
                        (Some v)) f) = f.
Proof. split; [reflexivity | rewrite run_getsize; reflexivity]. Qed.

(** A write, then a skip of no bytes, on a stream open for writing with
    no output waiting and a device that has room: both succeed and the
    device then holds the bytes at the old cursor. *)
Lemma run_write_then_skip0 (file : FILEptr) (f : FILE) (src : buffer)
    (size count : Z) :
  f_pending f = [] -> f_writable f = true ->
  0 < size <= INT_MAX -> 0 < count <= INT_MAX ->
  size * count <= Z.of_nat (length src) ->
  0 <= f_pos f -> f_pos f + size * count <= f_limit f ->
  f_limit f <= OFF_MAX ->
  run (write_then_skip0 (Some (fileStream file)) src size count) f
  = ([FWRITE; FSEEK],
     set_data f
       (write_at (f_pos f) (firstn (Z.to_nat (size * count)) src) (f_data f))
       (f_pos f + size * count),
     Some (KTX_SUCCESS, KTX_SUCCESS)).
Proof.
  intros Hq Hw Hs Hc Hsrc Hp Hroom Hlim.
  assert (Hn : 0 < size * count) by nia.
  set (b := firstn (Z.to_nat (size * count)) src).
  assert (Hlen : Z.of_nat (length b) = size * count)
    by (subst b; rewrite length_firstn; lia).
  assert (Hne : b <> [])
    by (intros E; rewrite E in Hlen; cbn in Hlen; lia).
  unfold write_then_skip0. rewrite run_bind, run_write.
  rewrite !to_size_t_id by (unfold INT_MAX, SIZE_MAX in *; lia).
  destruct (Z_lt_ge_dec (size * count) (f_bufsiz f)) as [Hfit | Hbig].
  - rewrite posix_fwrite_buffered
      by first [exact Hw | rewrite ?Hq; cbn [length]; lia].
    rewrite Z.eqb_refl. cbn [negb]. fold b.
    rewrite run_bind.
    rewrite (skip0_after_buffered_write file f b (size * count))
      by (assumption || lia).
    reflexivity.
  - rewrite posix_fwrite_through_idle by (assumption || lia).
    rewrite Z.eqb_refl. cbn [negb]. fold b.
    rewrite run_bind, run_skip by (reflexivity || lia).
    cbn [set_data f_pos].
    replace ((f_pos f + size * count + 0 <? 0)
             || (OFF_MAX <? f_pos f + size * count + 0)) with false
      by (symmetry; apply orb_false_iff; split; apply Z.ltb_ge; lia).
    cbn [run app set_pos set_data f_data f_pos f_pending f_bufsiz
         f_readable f_writable f_limit f_fd f_stat_err].
    rewrite Z.add_0_r. reflexivity.
Qed.

(** ** Construction and the type tag *)

(** X1: construction succeeds exactly when neither argument is NULL; the
    stream it then leaves in [*str], whatever [*str] held before, carries
    the file tag, the handle given, and the six file operations in its
    slots.  Otherwise it returns KTX_INVALID_VALUE and [*str] is as it
    was. *)
Theorem construct_succeeds_iff (str : option ktxStream)
    (file : option FILEptr) :
  let r := ktxFileStream_construct str file in
  (fst r = KTX_SUCCESS <-> str <> None /\ file <> None)
  /\ (fst r = KTX_SUCCESS ->
      exists h s,
        file = Some h /\ snd r = Some s
        /\ type s = eStreamTypeFile /\ data_file s = h
        /\ read s = fn_ktxFileStream_read
        /\ skip s = fn_ktxFileStream_skip
        /\ write s = fn_ktxFileStream_write
        /\ getpos s = fn_ktxFileStream_getpos
        /\ setpos s = fn_ktxFileStream_setpos
        /\ getsize s = fn_ktxFileStream_getsize)
  /\ (fst r <> KTX_SUCCESS -> r = (KTX_INVALID_VALUE, str)).
Proof.
  destruct str as [s |], file as [h |]; cbn; repeat split;
    try congruence; try (intros [H1 H2]; congruence).
  intros _. exists h, (fileStream h). repeat split.
Qed.

(** X2: whatever the stream slot held before, every operation called on
    the stream that construction leaves there, with non-NULL buffers,
    runs to a return value: the type assertion holds and the getsize slot
    that setpos calls through is wired. *)
Theorem constructed_stream_never_aborts (s0 : ktxStream) (file : FILEptr)
    (f : FILE) :
  let str := snd (ktxFileStream_construct (Some s0) (Some file)) in
  (forall d size,
      returned (run (ktxFileStream_read str (Some d) size) f) <> None)
  /\ (forall b size count,
      returned (run (ktxFileStream_write str (Some b) size count) f) <> None)
  /\ (forall count,
      returned (run (ktxFileStream_skip str count) f) <> None)
  /\ (forall v,
      returned (run (ktxFileStream_getpos str (Some v)) f) <> None)
  /\ (forall junk pos,
      returned (run (ktxFileStream_setpos junk str pos) f) <> None)
  /\ (forall v,
      returned (run (ktxFileStream_getsize str (Some v)) f) <> None).
Proof.
  cbn [ktxFileStream_construct snd]. repeat split; intros.
  - rewrite run_read. destruct (posix_fread _ _ _) as [[n got] f'].
    discriminate.
  - rewrite run_write. destruct (posix_fwrite _ _ _ _) as [n f'].
    discriminate.
  - destruct (Z_lt_ge_dec count 0) as [Hneg | Hpos].
    + unfold ktxFileStream_skip.
      replace (count <? 0) with true by (symmetry; apply Z.ltb_lt; lia).
      discriminate.
    + rewrite run_skip_gen by lia.
      destruct (posix_fseek _ _ _) as [rc f']. discriminate.
  - discriminate.
  - rewrite run_setpos_gen. cbv zeta.
    destruct (_ >? _); [discriminate |].
    destruct (posix_fseek _ _ _) as [rc f']. discriminate.
  - rewrite run_getsize. discriminate.
Qed.

(** X3: on a stream whose type tag is not the file tag, every operation
    that passes its argument check stops at the assertion: no libc call
    is issued and nothing is returned.  The argument check comes first, so
    a negative skip count is still answered with KTX_INVALID_VALUE. *)
Theorem foreign_stream_stops_at_assertion (s : ktxStream) (f : FILE) :
  type s <> eStreamTypeFile ->
  (forall d size,
      run (ktxFileStream_read (Some s) (Some d) size) f = ([], f, None))
  /\ (forall b size count,
      run (ktxFileStream_write (Some s) (Some b) size count) f
      = ([], f, None))
  /\ (forall count, 0 <= count ->
      run (ktxFileStream_skip (Some s) count) f = ([], f, None))
  /\ (forall n : positive,
      run (ktxFileStream_skip (Some s) (Z.neg n)) f
      = ([], f, Some KTX_INVALID_VALUE))
  /\ (forall v,
      run (ktxFileStream_getpos (Some s) (Some v)) f = ([], f, None))
  /\ (forall junk pos,
      run (ktxFileStream_setpos junk (Some s) pos) f = ([], f, None))
  /\ (forall v,
      run (ktxFileStream_getsize (Some s) (Some v)) f = ([], f, None)).
Proof.
  intros Ht.
  assert (E : streamType_eqb (type s) eStreamTypeFile = false)
    by (destruct (type s); [contradiction | reflexivity]).
  repeat split; intros;
    unfold ktxFileStream_read, ktxFileStream_write, ktxFileStream_skip,
      ktxFileStream_getpos, ktxFileStream_setpos, ktxFileStream_getsize;
    rewrite ?E; try reflexivity.
  replace (count <? 0) with false by (symmetry; apply Z.ltb_ge; lia).
  reflexivity.
Qed.

Lemma foreign_stream_stops_at_assertion_witness :
  run (ktxFileStream_setpos 0
         (Some (mk_ktxStream fn_null fn_null fn_null fn_null fn_null fn_null
                  eStreamTypeMemory 1%nat)) 10) file100
  = ([], file100, None).
Proof.
  assert (Ht : type (mk_ktxStream fn_null fn_null fn_null fn_null fn_null
                       fn_null eStreamTypeMemory 1%nat) <> eStreamTypeFile)
    by (cbn; discriminate).
  destruct (foreign_stream_stops_at_assertion _ file100 Ht)
    as (_ & _ & _ & _ & _ & Hset & _).
  apply Hset.
Defined.

(** ** Positioning *)



(** X5: after a setpos that succeeded, getpos reports the offset that was
    set, whatever the file and whatever the size query did. *)
Theorem getpos_after_setpos (junk : Z) (file : FILEptr) (f : FILE)
    (pos v : Z) :
  let str := Some (fileStream file) in
  returned (run (ktxFileStream_setpos junk str pos) f) = Some KTX_SUCCESS ->
  returned (run (c <- ktxFileStream_setpos junk str pos ;;
                 p <- ktxFileStream_getpos str (Some v) ;;
                 Ret (c, p)) f)
  = Some (KTX_SUCCESS, (KTX_SUCCESS, Some pos)).
Proof.
  intros str. subst str. rewrite run_bind, run_setpos_gen. cbv zeta.
  destruct (_ >? _); [discriminate |].
  unfold posix_fseek. destruct (flush_out f) as [[|] f1]; cbn [negb];
    [| discriminate].
  cbv zeta. cbn [Z.add].
  destruct (_ || _); [discriminate |]. intros _.
  cbn [Z.ltb Z.compare]. rewrite run_bind, run_getpos. reflexivity.
Qed.

Lemma getpos_after_setpos_witness :
  returned (run (c <- ktxFileStream_setpos 0 (Some (fileStream 1%nat)) 7 ;;
                 p <- ktxFileStream_getpos (Some (fileStream 1%nat))
                        (Some 0) ;;
                 Ret (c, p)) file100)
  = Some (KTX_SUCCESS, (KTX_SUCCESS, Some 7)).
Proof.
  apply (getpos_after_setpos 0 1%nat file100 7 0). reflexivity.
Defined.



(** X7: two skips in a row act as one skip of the sum: with no output
    waiting, a non-negative cursor and a target that fits off_t, both
    sequences succeed and leave the same file. *)
Theorem skip_skip_is_skip_of_sum (file : FILEptr) (f : FILE) (a b : Z) :
  f_pending f = [] ->
  0 <= a -> 0 <= b -> a + b <= INT_MAX ->
  0 <= f_pos f -> f_pos f + a + b <= OFF_MAX ->
  let str := Some (fileStream file) in
  run (c1 <- ktxFileStream_skip str a ;;
       c2 <- ktxFileStream_skip str b ;;
       Ret (c1, c2)) f
  = ([FSEEK; FSEEK], set_pos f (f_pos f + (a + b)),
     Some (KTX_SUCCESS, KTX_SUCCESS))
  /\ run (ktxFileStream_skip str (a + b)) f
     = ([FSEEK], set_pos f (f_pos f + (a + b)), Some KTX_SUCCESS).
Proof.
  intros Hq Ha Hb Hab Hp Hle str. subst str. split.
  - rewrite run_bind, skip_succeeds_whatever_the_size
      by (assumption || lia).
    rewrite run_bind, skip_succeeds_whatever_the_size
      by (cbn [set_pos f_pos f_pending]; assumption || lia).
    cbn [run app set_pos f_data f_pos f_pending f_bufsiz f_readable
         f_writable f_limit f_fd f_stat_err].
    rewrite Z.add_assoc. reflexivity.
  - apply skip_succeeds_whatever_the_size; assumption || lia.
Qed.

Lemma skip_skip_is_skip_of_sum_witness :
  run (c1 <- ktxFileStream_skip (Some (fileStream 1%nat)) 10 ;;
       c2 <- ktxFileStream_skip (Some (fileStream 1%nat)) 15 ;;
       Ret (c1, c2)) file100
  = ([FSEEK; FSEEK], set_pos file100 (f_pos file100 + (10 + 15)),
     Some (KTX_SUCCESS, KTX_SUCCESS)).
Proof.
  apply (skip_skip_is_skip_of_sum 1%nat file100 10 15).
  - reflexivity.
  - lia.
  - lia.
  - unfold INT_MAX. lia.
  - vm_compute. discriminate.
  - vm_compute. discriminate.
Defined.

(** X8: only write changes what the file holds.  On a constructed stream
    with no output waiting, read, skip, getpos, setpos and getsize leave
    the data of the file, hence its size, as they were, whatever their
    arguments and outcome. *)
Theorem only_write_changes_the_data (file : FILEptr) (f : FILE) :
  f_pending f = [] ->
  let str := Some (fileStream file) in
  (forall d size,
      f_data (file_after (run (ktxFileStream_read str (Some d) size) f))
      = f_data f)
  /\ (forall count,
      f_data (file_after (run (ktxFileStream_skip str count) f)) = f_data f)
  /\ (forall v,
      f_data (file_after (run (ktxFileStream_getpos str (Some v)) f))
      = f_data f)
  /\ (forall junk pos,
      f_data (file_after (run (ktxFileStream_setpos junk str pos) f))
      = f_data f)
  /\ (forall v,
      f_data (file_after (run (ktxFileStream_getsize str (Some v)) f))
      = f_data f).
Proof.
  intros Hq str. subst str. repeat split; intros.
  - rewrite run_read, posix_fread_idle by exact Hq.
    destruct (_ || _); reflexivity.
  - destruct (Z_lt_ge_dec count 0) as [Hneg | Hpos].
    + unfold ktxFileStream_skip.
      replace (count <? 0) with true by (symmetry; apply Z.ltb_lt; lia).
      reflexivity.
    + rewrite run_skip by (assumption || lia).
      destruct (_ || _); reflexivity.
  - rewrite run_setpos by exact Hq. cbv zeta.
    destruct (_ >? _); [reflexivity |]. destruct (_ || _); reflexivity.
  - rewrite run_getsize. reflexivity.
Qed.

Lemma only_write_changes_the_data_witness :
  f_data (file_after (run (ktxFileStream_skip (Some (fileStream 1%nat)) 60)
                        file100))
  = f_data file100.
Proof.
  destruct (only_write_changes_the_data 1%nat file100 eq_refl)
    as (_ & Hskip & _).
  apply Hskip.
Defined.

(** X9: setpos drops the outcome of the size query.  When fstat fails the
    comparison is made with whatever the local [fileSize] held: the result
    is still only KTX_SUCCESS or KTX_INVALID_OPERATION, and, with no
    output waiting, for a non-negative offset not above that value the
    seek is issued and succeeds, even beyond the end of the data. *)
Theorem setpos_drops_size_query_failure (junk : Z) (file : FILEptr)
    (f : FILE) (pos : Z) :
  f_stat_err f = true ->
  let o := run (ktxFileStream_setpos junk (Some (fileStream file)) pos) f in
  (returned o = Some KTX_SUCCESS \/ returned o = Some KTX_INVALID_OPERATION)
  /\ (f_pending f = [] -> 0 <= pos <= OFF_MAX -> pos <= junk ->
      o = ([FILENO; FSTAT; FSEEKO], set_pos f pos, Some KTX_SUCCESS)).
Proof.
  intros Hst o. subst o. split.
  - rewrite run_setpos_gen. cbv zeta.
    destruct (_ >? _); [right; reflexivity |].
    destruct (posix_fseek _ _ _) as [rc f'].
    destruct (rc <? 0); [right | left]; reflexivity.
  - intros Hq Hp Hj. rewrite run_setpos by exact Hq. rewrite Hst. cbv zeta.
    rewrite to_size_t_id by (unfold OFF_MAX, SIZE_MAX in *; lia).
    replace (pos >? junk) with false
      by (symmetry; rewrite Z.gtb_ltb; apply Z.ltb_ge; lia).
    replace ((pos <? 0) || (OFF_MAX <? pos)) with false
      by (symmetry; apply orb_false_iff; split; apply Z.ltb_ge; lia).
    reflexivity.
Qed.

Lemma setpos_drops_size_query_failure_witness :
  run (ktxFileStream_setpos 5000 (Some (fileStream 1%nat)) 4000) stat_broken
  = ([FILENO; FSTAT; FSEEKO], set_pos stat_broken 4000, Some KTX_SUCCESS).
Proof.
  assert (Hst : f_stat_err stat_broken = true) by reflexivity.
  destruct (setpos_drops_size_query_failure 5000 1%nat _ 4000 Hst)
    as [_ Hseek].
  apply Hseek; [reflexivity | unfold OFF_MAX; lia | lia].
Defined.

(** ** More on read and write *)

(** X10: the element count alone decides a write that moves no bytes.
    With a count of zero the write succeeds on any file, read-only ones
    included, and changes nothing; with elements of zero bytes and a
    positive count it returns KTX_FILE_WRITE_ERROR, again changing
    nothing, because fwrite reports zero elements. *)
Theorem write_of_no_bytes (file : FILEptr) (f : FILE) (src : buffer) :
  let str := Some (fileStream file) in
  (forall size,
      run (ktxFileStream_write str (Some src) size 0) f
      = ([FWRITE], f, Some KTX_SUCCESS))
  /\ (forall count, 0 < count <= INT_MAX ->
      run (ktxFileStream_write str (Some src) 0 count) f
      = ([FWRITE], f, Some KTX_FILE_WRITE_ERROR)).
Proof.
  intros str. subst str. split.
  - intros size. rewrite run_write.
    rewrite posix_fwrite_nothing by (right; reflexivity). reflexivity.
  - intros count Hc. rewrite run_write.
    rewrite posix_fwrite_nothing by (left; reflexivity).
    rewrite to_size_t_id by (unfold INT_MAX, SIZE_MAX in *; lia).
    replace (0 =? count) with false by (symmetry; apply Z.eqb_neq; lia).
    reflexivity.
Qed.

Lemma write_of_no_bytes_witness :
  run (ktxFileStream_write (Some (fileStream 1%nat)) (Some (bytes_of 4)) 0 4)
      empty_file
  = ([FWRITE], empty_file, Some KTX_FILE_WRITE_ERROR).
Proof.
  destruct (write_of_no_bytes 1%nat empty_file (bytes_of 4)) as [_ H].
  apply H. unfold INT_MAX. lia.
Defined.





(** X13: what the queries report after a write.  After a successful write
    of at least one byte that fits the stdio buffer, getpos reports the
    old cursor plus [size * count] at once, while getsize still reports
    the old size: the bytes have not reached the device.  After the next
    reposition (a skip of no bytes), getsize reports the larger of the old
    size and the new cursor. *)
Theorem queries_after_write (file : FILEptr) (f : FILE) (src : buffer)
    (size count : Z) :
  f_pending f = [] -> f_stat_err f = false -> f_writable f = true ->
  0 < size <= INT_MAX -> 0 < count <= INT_MAX ->
  size * count <= Z.of_nat (length src) ->
  size * count < f_bufsiz f ->
  0 <= f_pos f -> f_size f <= OFF_MAX ->
  f_pos f + size * count <= f_limit f -> f_limit f <= OFF_MAX ->
  let str := Some (fileStream file) in
  returned (run (w <- ktxFileStream_write str (Some src) size count ;;
                 p <- ktxFileStream_getpos str (Some 0) ;;
                 s <- ktxFileStream_getsize str (Some 0) ;;
                 c <- ktxFileStream_skip str 0 ;;
                 s' <- ktxFileStream_getsize str (Some 0) ;;
                 Ret (w, p, s, c, s')) f)
  = Some (KTX_SUCCESS,
          (KTX_SUCCESS, Some (f_pos f + size * count)),
          (KTX_SUCCESS, Some (f_size f)),
          KTX_SUCCESS,
          (KTX_SUCCESS, Some (Z.max (f_size f) (f_pos f + size * count)))).
Proof.
  intros Hq Hst Hw Hs Hc Hsrc Hfit Hp Hsz Hroom Hlim str. subst str.
  assert (Hn : 0 < size * count) by nia.
  set (b := firstn (Z.to_nat (size * count)) src).
  assert (Hlen : Z.of_nat (length b) = size * count)
    by (subst b; rewrite length_firstn; lia).
  assert (Hne : b <> [])
    by (intros E; rewrite E in Hlen; cbn in Hlen; lia).
  pose proof (f_size_nonneg f) as H0.
  rewrite run_bind, run_write.
  rewrite !to_size_t_id by (unfold INT_MAX, SIZE_MAX in *; lia).
  rewrite posix_fwrite_buffered
    by first [exact Hw | rewrite ?Hq; cbn [length]; lia].
  rewrite Z.eqb_refl. cbn [negb]. fold b.
  rewrite run_bind, run_getpos, run_bind, run_getsize.
  change (f_stat_err (add_pending f b (f_pos f + size * count)))
    with (f_stat_err f).
  change (f_size (add_pending f b (f_pos f + size * count)))
    with (f_size f).
  rewrite Hst, run_bind.
  rewrite (skip0_after_buffered_write file f b (size * count))
    by (assumption || lia).
  rewrite run_bind, run_getsize.
  cbn [set_data f_stat_err f_pos]. rewrite Hst.
  unfold f_size at 2. cbn [set_data f_data].
  rewrite write_at_length, Hlen by exact Hp.
  unfold f_size in *.
  rewrite !to_size_t_id by (unfold OFF_MAX, SIZE_MAX in *; lia).
  reflexivity.
Qed.

Lemma queries_after_write_witness :
  returned (run (w <- ktxFileStream_write (Some (fileStream 1%nat))
                        (Some (bytes_of 10)) 1 10 ;;
                 p <- ktxFileStream_getpos (Some (fileStream 1%nat))
                        (Some 0) ;;
                 s <- ktxFileStream_getsize (Some (fileStream 1%nat))
                        (Some 0) ;;
                 c <- ktxFileStream_skip (Some (fileStream 1%nat)) 0 ;;
                 s' <- ktxFileStream_getsize (Some (fileStream 1%nat))
                         (Some 0) ;;
                 Ret (w, p, s, c, s')) empty_file)
  = Some (KTX_SUCCESS, (KTX_SUCCESS, Some 10), (KTX_SUCCESS, Some 0),
          KTX_SUCCESS, (KTX_SUCCESS, Some 10)).
Proof.
  apply (queries_after_write 1%nat empty_file (bytes_of 10) 1 10).
  - reflexivity.
  - reflexivity.
  - reflexivity.
  - unfold INT_MAX. lia.
  - unfold INT_MAX. lia.
  - vm_compute. discriminate.
  - vm_compute. reflexivity.
  - vm_compute. discriminate.
  - vm_compute. discriminate.
  - vm_compute. discriminate.
  - vm_compute. discriminate.
Defined.

(** X14: a write touches only the bytes it was given room for.  On a
    stream open for writing with no output waiting and a device that has
    room, the write and the skip of no bytes that passes the bytes to the
    device both succeed; on the device, the bytes before the old cursor
    are then as before, followed by zero bytes when the cursor stood
    beyond the end of the data, the written range holds the source bytes,
    and the bytes after it are as before. *)
Theorem write_leaves_the_rest (file : FILEptr) (f : FILE) (src : buffer)
    (size count : Z) :
  f_pending f = [] -> f_writable f = true ->
  0 < size <= INT_MAX -> 0 < count <= INT_MAX ->
  size * count <= Z.of_nat (length src) ->
  0 <= f_pos f -> f_pos f + size * count <= f_limit f ->
  f_limit f <= OFF_MAX ->
  let o := run (write_then_skip0 (Some (fileStream file)) src size count) f in
  let p := Z.to_nat (f_pos f) in
  let n := Z.to_nat (size * count) in
  returned o = Some (KTX_SUCCESS, KTX_SUCCESS)
  /\ firstn p (f_data (file_after o))
     = firstn p (f_data f) ++ repeat Byte.x00 (p - length (f_data f))
  /\ firstn n (skipn p (f_data (file_after o))) = firstn n src
  /\ skipn (p + n) (f_data (file_after o)) = skipn (p + n) (f_data f).
Proof.
  intros Hq Hw Hs Hc Hsrc Hp Hroom Hlim o p n. subst o p n.
  assert (Hn : 0 < size * count) by nia.
  rewrite run_write_then_skip0 by assumption.
  cbn [returned file_after fst snd set_data f_data].
  assert (Hlen : length (firstn (Z.to_nat (size * count)) src)
                 = Z.to_nat (size * count))
    by (rewrite length_firstn; lia).
  split; [reflexivity | split; [| split]].
  - apply write_at_prefix. exact Hp.
  - pose proof (slice_write_at (f_pos f)
                  (firstn (Z.to_nat (size * count)) src) (f_data f) Hp) as H.
    unfold slice in H. rewrite Hlen, Nat2Z.id in H. exact H.
  - rewrite <- Hlen at 1 3. apply write_at_suffix. exact Hp.
Qed.

Lemma write_leaves_the_rest_witness :
  let d := f_data (file_after
                     (run (write_then_skip0 (Some (fileStream 1%nat))
                             [Byte.xaa; Byte.xbb; Byte.xcc; Byte.xdd] 2 2)
                        (sample_file digits 10 true true))) in
  firstn 10 d = digits ++ [Byte.x00; Byte.x00]
  /\ firstn 4 (skipn 10 d) = [Byte.xaa; Byte.xbb; Byte.xcc; Byte.xdd]
  /\ skipn 14 d = [].
Proof.
  assert (Hs : 0 < 2 <= INT_MAX) by (unfold INT_MAX; lia).
  assert (Hsrc : 2 * 2 <= Z.of_nat (length [Byte.xaa; Byte.xbb; Byte.xcc;
                                            Byte.xdd]))
    by (vm_compute; discriminate).
  assert (Hp : 0 <= f_pos (sample_file digits 10 true true))
    by (vm_compute; discriminate).
  assert (Hroom : f_pos (sample_file digits 10 true true) + 2 * 2
                  <= f_limit (sample_file digits 10 true true))
    by (vm_compute; discriminate).
  assert (Hlim : f_limit (sample_file digits 10 true true) <= OFF_MAX)
    by (vm_compute; discriminate).
  destruct (write_leaves_the_rest 1%nat (sample_file digits 10 true true)
              [Byte.xaa; Byte.xbb; Byte.xcc; Byte.xdd] 2 2
              eq_refl eq_refl Hs Hs Hsrc Hp Hroom Hlim)
    as (_ & Hpre & Hmid & Hsuf).
  intros d. split; [exact Hpre | split; [exact Hmid | exact Hsuf]].
Defined.

(** X15: apart from a skip beyond the end and from output still waiting
    in the stdio buffer, the operations keep the cursor within the size.
    Starting from a file with no output waiting whose cursor is within
    the data and whose size query answers: a read keeps it there whether
    it succeeds or not, a successful setpos leaves it there, a skip does
    when its target does not exceed the size, the two queries do not
    touch the file, and a write of at least one byte followed by the skip
    of no bytes that passes the bytes to the device leaves it there. *)
Theorem cursor_stays_within_data (file : FILEptr) (f : FILE) :
  f_pending f = [] ->
  pos_in_range f -> f_stat_err f = false -> f_size f <= OFF_MAX ->
  let str := Some (fileStream file) in
  (forall d size,
      pos_in_range (file_after (run (ktxFileStream_read str (Some d) size) f)))
  /\ (forall junk pos,
      off_t_range pos ->
      returned (run (ktxFileStream_setpos junk str pos) f)
      = Some KTX_SUCCESS ->
      pos_in_range (file_after (run (ktxFileStream_setpos junk str pos) f)))
  /\ (forall count,
      0 <= count -> f_pos f + count <= f_size f ->
      pos_in_range (file_after (run (ktxFileStream_skip str count) f)))
  /\ (forall v,
      file_after (run (ktxFileStream_getpos str (Some v)) f) = f
      /\ file_after (run (ktxFileStream_getsize str (Some v)) f) = f)
  /\ (forall src size count,
      f_writable f = true ->
      0 < size <= INT_MAX -> 0 < count <= INT_MAX ->
      size * count <= Z.of_nat (length src) ->
      f_pos f + size * count <= f_limit f -> f_limit f <= OFF_MAX ->
      pos_in_range
        (file_after (run (write_then_skip0 str src size count) f))).
Proof.
  intros Hq Hin Hst Hsz str. subst str.
  split; [| split; [| split; [| split]]].
  - intros d size. apply read_keeps_pos_in_range; assumption.
  - intros junk pos Hp Hok.
    apply (setpos_keeps_pos_in_range junk file f pos); assumption.
  - intros count Hc Hle. destruct Hin as [Hlo Hhi].
    rewrite skip_succeeds_whatever_the_size by (assumption || lia).
    unfold file_after, pos_in_range. cbn [fst snd set_pos f_pos].
    change (f_size (set_pos f (f_pos f + count))) with (f_size f). lia.
  - intros v. apply queries_keep_the_file.
  - intros src size count Hw Hs Hc Hsrc Hroom Hlim. destruct Hin as [Hlo Hhi].
    assert (Hn : 0 < size * count) by nia.
    rewrite run_write_then_skip0 by assumption.
    unfold file_after, pos_in_range, f_size.
    cbn [fst snd set_data f_pos f_data].
    rewrite write_at_length, length_firstn by exact Hlo. lia.
Qed.

Lemma cursor_stays_within_data_witness :
  pos_in_range
    (file_after (run (ktxFileStream_skip (Some (fileStream 1%nat)) 50)
                   file100)).
Proof.
  assert (Hin : pos_in_range file100)
    by (unfold pos_in_range; vm_compute; split; discriminate).
  assert (Hsz : f_size file100 <= OFF_MAX) by (vm_compute; discriminate).
  destruct (cursor_stays_within_data 1%nat file100 eq_refl Hin eq_refl Hsz)
    as (_ & _ & Hskip & _).
  apply Hskip; vm_compute; discriminate.
Defined.
